(** * bperm: path-prefix permissions middleware

    A shallow embedding of [bperm.go] and the properties of its rule table,
    of the evaluation [Rejected] and of the middleware entry point
    [ServeHTTP].

    The package keeps a table of URL path prefixes per category and decides,
    for each request, whether it is rejected.  Everything the package calls
    but does not define (the user-state store with its
    [IsCurrentUserAdmin] method, the handlers, [http.Error]) acts on an
    abstract [World]; the embedding threads that world explicitly and
    records, in order, every call that leaves the package. *)

From Stdlib Require Import String ZArith List Bool Lia.
From stdpp Require Import base strings gmap list.

Local Open Scope string_scope.

(** ** Strings *)

(** [strings.HasPrefix(s, prefix)], as the Go library writes it:
    [len(s) >= len(prefix) && s[:len(prefix)] == prefix]. *)
Definition HasPrefix (s prefix : string) : bool :=
  (String.length prefix <=? String.length s)%nat
  && String.eqb (substring 0 (String.length prefix) s) prefix.

(** ** Requests *)

(** The part of [net/url.URL] and [net/http.Request] the package reads:
    the path, and the headers the user-state store looks at. *)
Record Url := mkUrl { Path : string }.

Record Request := mkRequest {
  URL : Url;
  Header : list (string * string)
}.

(** ** Path categories *)

(** [type Paths string]: the keys of the rule table. *)
Abbreviation Paths := string (only parsing).

Definition aPaths : Paths := "AdminPaths".
Definition uPaths : Paths := "UserPaths".
Definition pPaths : Paths := "PubblicPaths".

Definition StatusForbidden : Z := 403.

Section Bperm.

(** What lies outside the package. [World] is the state reachable by the
    store and by the handlers (sessions, response buffers);
    [UserState] is the handle [*UserState]; [error] is Go's error value,
    [None] standing for [nil]. *)
Context {World UserState error ResponseWriter : Type}.

(** [func (state *UserState) IsCurrentUserAdmin(req) (bool, error)],
    declared in the store's own file. *)
Variable IsCurrentUserAdmin :
  UserState -> Request -> World -> (bool * option error) * World.

(** [http.Error(w, msg, code)] of [net/http]. *)
Variable http_Error : ResponseWriter -> string -> Z -> World -> World.

(** [http.HandlerFunc]: a handler acts on the world. *)
Definition HandlerFunc : Type := ResponseWriter -> Request -> World -> World.

(** *** Calls that leave the package *)

Inductive Call : Type :=
| CallIsCurrentUserAdmin (st : UserState) (req : Request)
| CallDenied (w : ResponseWriter) (req : Request)
| CallNext (w : ResponseWriter) (req : Request).

(** The outcome of running a piece of the package from a given world:
    the value it returns, the world it leaves, the calls it made. *)
Record Run (A : Type) : Type := mkRun {
  value : A;
  after : World;
  calls : list Call
}.
#[local] Arguments mkRun {A} _ _ _.
#[local] Arguments value {A} _.
#[local] Arguments after {A} _.
#[local] Arguments calls {A} _.

Definition Action (A : Type) : Type := World -> Run A.

Definition ret {A} (a : A) : Action A :=
  fun s => mkRun a s [].

Definition bind {A B} (m : Action A) (k : A -> Action B) : Action B :=
  fun s =>
    let r := m s in
    let r' := k (value r) (after r) in
    mkRun (value r') (after r') (calls r ++ calls r').

Notation "x <- m ;; k" := (bind m (fun x => k))
  (at level 100, m at next level, right associativity).

(** [perm.state.IsCurrentUserAdmin(req)] *)
Definition askAdmin (st : UserState) (req : Request)
  : Action (bool * option error) :=
  fun s =>
    let r := IsCurrentUserAdmin st req s in
    mkRun (fst r) (snd r) [CallIsCurrentUserAdmin st req].

(** [perm.GetDenyFunc()(w, req)] and [next(w, req)] *)
Definition callDenied (f : HandlerFunc) (w : ResponseWriter) (req : Request)
  : Action unit :=
  fun s => mkRun tt (f w req s) [CallDenied w req].

Definition callNext (f : HandlerFunc) (w : ResponseWriter) (req : Request)
  : Action unit :=
  fun s => mkRun tt (f w req s) [CallNext w req].

(** *** The Permissions structure *)

(** [paths] is the Go map [map[Paths][]string]: reading a key that is
    absent gives the nil slice, which is [!!!] on a [gmap] of lists.  The
    map itself is the one allocated by [NewFromUserState]. *)
Record Permissions : Type := mkPermissions {
  state : UserState;
  paths : gmap string (list string);
  rootIsPublic : bool;
  denied : HandlerFunc
}.

(** [DefaultDenyFunc] *)
Definition DefaultDenyFunc : HandlerFunc :=
  fun w req => http_Error w "Permission denied." StatusForbidden.

(** [NewFromUserState] *)
Definition NewFromUserState (st : UserState) : Permissions :=
  let paths0 : gmap string (list string) := ∅ in
  let paths1 := <[aPaths := ["/admin"]]> paths0 in
  let paths2 := <[uPaths := ["/profiles"; "/data"]]> paths1 in
  let paths3 :=
    <[pPaths := ["/"; "/login"; "/register";
                 "/favicon.ico"; "/style";
                 "/img"; "/js"; "/favicon.ico";
                 "/robots.txt"; "/sitemap_index.xml"]]> paths2 in
  mkPermissions st paths3 true DefaultDenyFunc.

(** [SetDenyFunc], [GetDenyFunc], [GetUserState] *)
Definition SetDenyFunc (perm : Permissions) (f : HandlerFunc) : Permissions :=
  mkPermissions (state perm) (paths perm) (rootIsPublic perm) f.

Definition GetDenyFunc (perm : Permissions) : HandlerFunc := denied perm.

Definition GetUserState (perm : Permissions) : UserState := state perm.

(** [AddPath]: [perm.paths[valid] = append(perm.paths[valid], prefix)] *)
Definition AddPath (perm : Permissions) (valid : Paths) (prefix : string)
  : Permissions :=
  mkPermissions (state perm)
    (<[valid := ((paths perm !!! valid) ++ [prefix])%list]> (paths perm))
    (rootIsPublic perm) (denied perm).

(** [SetPath]: [perm.paths[valid] = pathPrefixes] *)
Definition SetPath (perm : Permissions) (valid : Paths)
    (pathPrefixes : list string) : Permissions :=
  mkPermissions (state perm)
    (<[valid := pathPrefixes]> (paths perm))
    (rootIsPublic perm) (denied perm).

(** [Reset] *)
Definition Reset (perm : Permissions) : Permissions :=
  let paths1 := <[aPaths := []]> (paths perm) in
  let paths2 := <[uPaths := []]> paths1 in
  mkPermissions (state perm) paths2 (rootIsPublic perm) (denied perm).

(** *** Rejected *)

(** The loop over [perm.paths[aPaths]]; its value is [reject] when the
    loop is left, by exhaustion or by [break]. *)
Fixpoint adminLoop (st : UserState) (req : Request) (path : string)
    (prefixes : list string) : Action bool :=
  match prefixes with
  | [] => ret false
  | prefix :: rest =>
      if HasPrefix path prefix then
        r <- askAdmin st req ;;
        if negb (fst r) then ret true
        else adminLoop st req path rest
      else adminLoop st req path rest
  end.

(** The loop over [perm.paths[pPaths]]; its value is [found]. *)
Fixpoint publicLoop (path : string) (prefixes : list string) : bool :=
  match prefixes with
  | [] => false
  | prefix :: rest =>
      if HasPrefix path prefix then true
      else publicLoop path rest
  end.

Definition Rejected (perm : Permissions) (w : ResponseWriter) (req : Request)
  : Action bool :=
  let path := Path (URL req) in
  if negb (rootIsPublic perm && String.eqb path "/") then
    reject <- adminLoop (state perm) req path (paths perm !!! aPaths) ;;
    if negb reject then
      let found := publicLoop path (paths perm !!! pPaths) in
      if negb found then ret true else ret reject
    else ret reject
  else ret false.

(** *** ServeHTTP *)

Definition ServeHTTP (perm : Permissions) (w : ResponseWriter)
    (req : Request) (next : HandlerFunc) : Action unit :=
  rejected <- Rejected perm w req ;;
  if rejected then callDenied (GetDenyFunc perm) w req
  else callNext next w req.

End Bperm.

Arguments mkRun {World UserState ResponseWriter A} _ _ _.
Arguments value {World UserState ResponseWriter A} _.
Arguments after {World UserState ResponseWriter A} _.
Arguments calls {World UserState ResponseWriter A} _.
Arguments ret {World UserState ResponseWriter A} a _.
Arguments bind {World UserState ResponseWriter A B} m k _.

(** "path matches some prefix of the list": the wording of the properties
    below for a category's prefix list. *)
Definition matchesAny (path : string) (prefixes : list string) : bool :=
  existsb (HasPrefix path) prefixes.

(** The root exemption of [Rejected]: the guard
    [perm.rootIsPublic && path == "/"]. *)
Definition rootExempt {World UserState ResponseWriter : Type}
    (perm : @Permissions World UserState ResponseWriter) (req : Request)
  : Prop :=
  rootIsPublic perm = true /\ Path (URL req) = "/".



(** The Public prefixes as the package's description lists them, each once. *)
Definition listedPublicPrefixes : list string :=
  ["/"; "/login"; "/register"; "/favicon.ico"; "/style"; "/img"; "/js";
   "/robots.txt"; "/sitemap_index.xml"].

(** ** Constructors that open a store *)

Section Constructors.

Context {World UserState error ResponseWriter : Type}.

(** [NewUserStateSimple()] and [NewUserState(name, flag)], declared in the
    store's own file: each returns Go's pair of a handle and an error, and
    may change the world. *)
Variable NewUserStateSimple : World -> (UserState * option error) * World.
Variable NewUserState :
  string -> bool -> World -> (UserState * option error) * World.

Variable http_Error : ResponseWriter -> string -> Z -> World -> World.

(** [New]: Go's pair of a pointer and an error, [None] standing for [nil]. *)
Definition New (s : World)
  : (option (@Permissions World UserState ResponseWriter) * option error)
    * World :=
  let r := NewUserStateSimple s in
  let st := fst (fst r) in
  match snd (fst r) with
  | Some err => ((None, Some err), snd r)
  | None => ((Some (NewFromUserState http_Error st), None), snd r)
  end.

(** [NewWithConf] *)
Definition NewWithConf (name : string) (s : World)
  : (option (@Permissions World UserState ResponseWriter) * option error)
    * World :=
  let r := NewUserState name true s in
  let st := fst (fst r) in
  match snd (fst r) with
  | Some err => ((None, Some err), snd r)
  | None => ((Some (NewFromUserState http_Error st), None), snd r)
  end.

End Constructors.

(** ** Configuring a structure

    The exported methods that change a [Permissions]; a configuration is
    any sequence of them, applied in order. *)
Inductive Setup {World ResponseWriter : Type} : Type :=
| DoAddPath (valid : Paths) (prefix : string)
| DoSetPath (valid : Paths) (pathPrefixes : list string)
| DoReset
| DoSetDenyFunc (f : @HandlerFunc World ResponseWriter).

Definition setup {World UserState ResponseWriter : Type}
    (perm : @Permissions World UserState ResponseWriter)
    (op : @Setup World ResponseWriter) : Permissions :=
  match op with
  | DoAddPath valid prefix => AddPath perm valid prefix
  | DoSetPath valid pathPrefixes => SetPath perm valid pathPrefixes
  | DoReset => Reset perm
  | DoSetDenyFunc f => SetDenyFunc perm f
  end.

Definition configure {World UserState ResponseWriter : Type}
    (perm : @Permissions World UserState ResponseWriter)
    (ops : list (@Setup World ResponseWriter)) : Permissions :=
  fold_left setup ops perm.


(** The guard of [Rejected] as a boolean, and the Admin prefixes a path
    matches. *)
Definition rootExemptb {World UserState ResponseWriter : Type}
    (perm : @Permissions World UserState ResponseWriter) (req : Request)
  : bool :=
  rootIsPublic perm && String.eqb (Path (URL req)) "/".

Definition matching (path : string) (prefixes : list string) : list string :=
  List.filter (HasPrefix path) prefixes.

(** ** A stub environment

    A store whose handle is the pair it answers on every request, response
    writers named by numbers, and a world that lists what [http.Error]
    wrote.  It runs the package on concrete requests. *)
Module Stub.

Definition World : Type := list (nat * string * Z).
Definition UserState : Type := (bool * option string)%type.

Definition IsCurrentUserAdmin (st : UserState) (req : Request) (s : World)
  : (bool * option string) * World := (st, s).

(** A query that answers [r] whatever the handle. *)
Definition answer (r : bool * option string)
  : UserState -> Request -> World -> (bool * option string) * World :=
  fun _ _ s => (r, s).

Definition http_Error (w : nat) (msg : string) (code : Z) (s : World)
  : World := (s ++ [(w, msg, code)])%list.

Definition New (st : UserState) : @Permissions World UserState nat :=
  NewFromUserState http_Error st.

Definition get (path : string) : Request := mkRequest (mkUrl path) [].

Definition next : @HandlerFunc World nat := fun w req s => s.

End Stub.

(** * Properties *)

(** ** Prefix matching *)

Lemma HasPrefix_empty (s : string) : HasPrefix s "" = true.
Proof. unfold HasPrefix. destruct s; reflexivity. Qed.

Lemma HasPrefix_of_empty (c : Ascii.ascii) (p : string) :
  HasPrefix "" (String c p) = false.
Proof. reflexivity. Qed.

Lemma HasPrefix_step (a c : Ascii.ascii) (s p : string) :
  HasPrefix (String a s) (String c p) = Ascii.eqb a c && HasPrefix s p.
Proof.
  unfold HasPrefix. cbn [String.length substring String.eqb Nat.leb].
  destruct (Ascii.eqb a c), (String.length p <=? String.length s)%nat;
    reflexivity.
Qed.

(** [HasPrefix] is literal, case-sensitive prefix matching. *)
Lemma HasPrefix_spec (s p : string) :
  HasPrefix s p = true <-> exists t, s = p ++ t.
Proof.
  revert s. induction p as [|c p IH]; intros s.
  - rewrite HasPrefix_empty. split; [exists s; reflexivity | reflexivity].
  - destruct s as [|a s].
    + rewrite HasPrefix_of_empty.
      split; [discriminate | intros [t Ht]; discriminate].
    + rewrite HasPrefix_step, andb_true_iff, Ascii.eqb_eq, IH. split.
      * intros [-> [t ->]]. exists t. reflexivity.
      * intros [t Ht]. injection Ht as -> ->. split; [reflexivity | eauto].
Qed.

Lemma HasPrefix_stdlib (s p : string) : HasPrefix s p = String.prefix p s.
Proof.
  revert s. induction p as [|c p IH]; intros s.
  - rewrite HasPrefix_empty. destruct s; reflexivity.
  - destruct s as [|a s]; [reflexivity|].
    rewrite HasPrefix_step, IH. cbn [String.prefix].
    destruct (Ascii.ascii_dec c a) as [->|Hne].
    + rewrite Ascii.eqb_refl. reflexivity.
    + destruct (Ascii.eqb a c) eqn:E; [|reflexivity].
      apply Ascii.eqb_eq in E. congruence.
Qed.

Lemma matchesAny_spec (path : string) (prefixes : list string) :
  matchesAny path prefixes = true <->
  exists prefix, In prefix prefixes /\ HasPrefix path prefix = true.
Proof. unfold matchesAny. apply existsb_exists. Qed.

(** ** The evaluation and the middleware, for one identity query *)

Section Facts.

Context {World UserState error ResponseWriter : Type}.
Variable IsCurrentUserAdmin :
  UserState -> Request -> World -> (bool * option error) * World.
Variable http_Error : ResponseWriter -> string -> Z -> World -> World.

#[local] Abbreviation Perm := (@Permissions World UserState ResponseWriter).
#[local] Abbreviation loop :=
  (@adminLoop World UserState error ResponseWriter IsCurrentUserAdmin).

Lemma publicLoop_matchesAny (path : string) (prefixes : list string) :
  publicLoop path prefixes = matchesAny path prefixes.
Proof.
  induction prefixes as [|prefix rest IH]; [reflexivity|].
  cbn [publicLoop matchesAny existsb]. rewrite IH.
  destruct (HasPrefix path prefix); reflexivity.
Qed.

(** No Admin prefix matches: the loop asks nothing and leaves [reject]
    false. *)
Lemma adminLoop_no_match st req path prefixes s :
  matchesAny path prefixes = false ->
  loop st req path prefixes s = mkRun false s [].
Proof.
  induction prefixes as [|prefix rest IH]; intros Hm; [reflexivity|].
  cbn [matchesAny existsb] in Hm. apply orb_false_iff in Hm as [Hp Hr].
  cbn [adminLoop]. rewrite Hp. apply IH, Hr.
Qed.

(** Some Admin prefix matches and the store says "not admin": one
    question, then [reject = true; break]. *)
Lemma adminLoop_not_admin st req path prefixes s :
  matchesAny path prefixes = true ->
  fst (fst (IsCurrentUserAdmin st req s)) = false ->
  loop st req path prefixes s =
    mkRun true (snd (IsCurrentUserAdmin st req s))
          [CallIsCurrentUserAdmin st req].
Proof.
  induction prefixes as [|prefix rest IH]; intros Hm Hq; [discriminate|].
  cbn [matchesAny existsb] in Hm. cbn [adminLoop].
  destruct (HasPrefix path prefix).
  - unfold bind, askAdmin. cbn [value after calls]. rewrite Hq. reflexivity.
  - apply IH; assumption.
Qed.

(** The store says "admin" each time it is asked: the loop runs to its end
    with [reject] false. *)
Lemma adminLoop_admin st req path prefixes s :
  (forall s', fst (fst (IsCurrentUserAdmin st req s')) = true) ->
  value (loop st req path prefixes s) = false.
Proof.
  intros Hq. revert s.
  induction prefixes as [|prefix rest IH]; intros s; [reflexivity|].
  cbn [adminLoop]. destruct (HasPrefix path prefix); [|apply IH].
  unfold bind, askAdmin. cbn [value after calls]. rewrite Hq. apply IH.
Qed.


Lemma not_rootExempt (perm : Perm) req :
  ~ rootExempt perm req <->
  rootIsPublic perm && String.eqb (Path (URL req)) "/" = false.
Proof.
  unfold rootExempt. rewrite andb_false_iff, <- not_true_iff_false.
  rewrite <- (not_true_iff_false (String.eqb _ _)), String.eqb_eq.
  destruct (rootIsPublic perm); split.
  - intros H. right. intros E. apply H. split; [reflexivity | exact E].
  - intros [H|H] [H1 H2]; [apply H, H1 | apply H, H2].
  - intros _. left. discriminate.
  - intros _ [H _]. discriminate.
Qed.

(** [Rejected] on the exempt root path. *)
Lemma Rejected_exempt (perm : Perm) w req s :
  rootExempt perm req ->
  Rejected IsCurrentUserAdmin perm w req s = mkRun false s [].
Proof.
  intros [Hroot Hpath]. unfold Rejected. rewrite Hroot, Hpath. reflexivity.
Qed.

(** [Rejected] elsewhere: the Admin stage, then the Public stage unless
    already rejected. *)
Lemma Rejected_stages (perm : Perm) w req s :
  ~ rootExempt perm req ->
  Rejected IsCurrentUserAdmin perm w req s =
    mkRun
      (value (loop (state perm) req (Path (URL req)) (paths perm !!! aPaths) s)
       || negb (matchesAny (Path (URL req)) (paths perm !!! pPaths)))
      (after (loop (state perm) req (Path (URL req)) (paths perm !!! aPaths) s))
      (calls (loop (state perm) req (Path (URL req)) (paths perm !!! aPaths) s)).
Proof.
  intros Hex. apply not_rootExempt in Hex.
  unfold Rejected. rewrite Hex.
  cbn [negb]. unfold bind. rewrite publicLoop_matchesAny.
  destruct (value (loop _ _ _ _ _));
    [| destruct (matchesAny _ _)];
    cbn [negb orb ret value after calls]; rewrite app_nil_r; reflexivity.
Qed.

Lemma rootExempt_dec (perm : Perm) req :
  rootExempt perm req \/ ~ rootExempt perm req.
Proof.
  destruct (rootIsPublic perm && String.eqb (Path (URL req)) "/") eqn:E.
  - left. apply andb_true_iff in E as [H1 H2].
    apply String.eqb_eq in H2. split; assumption.
  - right. apply not_rootExempt, E.
Qed.




(** *** The default table *)

Lemma default_aPaths (st : UserState) :
  paths (NewFromUserState http_Error st) !!! aPaths = ["/admin"].
Proof. reflexivity. Qed.

Lemma default_pPaths (st : UserState) :
  paths (NewFromUserState http_Error st) !!! pPaths =
    ["/"; "/login"; "/register"; "/favicon.ico"; "/style"; "/img"; "/js";
     "/favicon.ico"; "/robots.txt"; "/sitemap_index.xml"].
Proof. reflexivity. Qed.

(** The default Public list opens with "/": every path that starts with a
    slash matches it. *)
Lemma default_public_matches_rooted (st : UserState) (rest : string) :
  matchesAny ("/" ++ rest)
             (paths (NewFromUserState http_Error st) !!! pPaths) = true.
Proof.
  rewrite default_pPaths. apply matchesAny_spec. exists "/".
  split; [left; reflexivity |]. apply HasPrefix_spec. exists rest. reflexivity.
Qed.

(** C1 (as the code has it). With the default configuration, the path
    "/admin/dashboard" and an identity query that returns (true, nil), the
    evaluation allows: the Admin check passes, and the Public stage finds
    the prefix "/" of the default Public list, which every path that
    starts with a slash matches. *)
Theorem default_admin_dashboard_admin_allowed (st : UserState) w req s :
  Path (URL req) = "/admin/dashboard" ->
  (forall s', fst (IsCurrentUserAdmin st req s') = (true, None)) ->
  value (Rejected IsCurrentUserAdmin (NewFromUserState http_Error st) w req s)
  = false.
Proof.
  intros Hp Hq. rewrite Rejected_stages.
  - cbn [value]. rewrite adminLoop_admin.
    + rewrite default_pPaths, Hp. reflexivity.
    + intros s'. cbn [state NewFromUserState]. rewrite Hq. reflexivity.
  - intros [_ H]. rewrite Hp in H. discriminate.
Qed.

(** C2 (as the code has it). With the default configuration, the path
    "/unknown/page" and an identity query that returns (false, nil), the
    evaluation allows: no Admin prefix matches, and the Public prefix "/"
    does. *)
Theorem default_unknown_page_allowed (st : UserState) w req s :
  Path (URL req) = "/unknown/page" ->
  (forall s', fst (IsCurrentUserAdmin st req s') = (false, None)) ->
  value (Rejected IsCurrentUserAdmin (NewFromUserState http_Error st) w req s)
  = false.
Proof.
  intros Hp _. rewrite Rejected_stages.
  - rewrite adminLoop_no_match.
    + cbn [value]. rewrite default_pPaths, Hp. reflexivity.
    + rewrite default_aPaths, Hp. reflexivity.
  - intros [_ H]. rewrite Hp in H. discriminate.
Qed.

(** C3 (as the code has it). From the default configuration, after
    [Reset], the path "/admin/dashboard" with an identity query that
    returns (false, nil) is allowed: the emptied Admin list matches
    nothing, and the path matches the prefix "/" of the untouched Public
    list. *)
Theorem reset_admin_dashboard_allowed (st : UserState) w req s :
  Path (URL req) = "/admin/dashboard" ->
  (forall s', fst (IsCurrentUserAdmin st req s') = (false, None)) ->
  value (Rejected IsCurrentUserAdmin (Reset (NewFromUserState http_Error st))
                  w req s)
  = false.
Proof.
  intros Hp _. rewrite Rejected_stages.
  - rewrite adminLoop_no_match.
    + cbn [value].
      replace (paths (Reset (NewFromUserState http_Error st)) !!! pPaths)
        with (paths (NewFromUserState http_Error st) !!! pPaths) by reflexivity.
      rewrite default_pPaths, Hp. reflexivity.
    + replace (paths (Reset (NewFromUserState http_Error st)) !!! aPaths)
        with (@nil string) by reflexivity.
      reflexivity.
  - intros [_ H]. rewrite Hp in H. discriminate.
Qed.

(** C5. Whatever the rule table and whatever the identity query does, if
    root-is-public is set and the path is exactly "/", the evaluation
    allows, and it does so at once: the world is untouched and no call is
    made, so neither the Admin nor the Public stage runs. *)
Theorem Rejected_root_is_public (perm : Perm) w req s :
  rootIsPublic perm = true ->
  Path (URL req) = "/" ->
  Rejected IsCurrentUserAdmin perm w req s = mkRun false s [].
Proof.
  intros Hroot Hpath. apply Rejected_exempt. split; assumption.
Qed.

(** C6 (as the code has it). For every rule table and every path that
    matches some Admin prefix and is not the exempt root path, if the
    identity query returns (false, nil) the evaluation denies after that
    one question, whatever the Public list holds: the failed Admin check
    ends the evaluation before the Public stage. *)
Theorem Rejected_admin_prefix_not_admin (perm : Perm) w req s :
  matchesAny (Path (URL req)) (paths perm !!! aPaths) = true ->
  ~ rootExempt perm req ->
  (forall s', fst (IsCurrentUserAdmin (state perm) req s') = (false, None)) ->
  Rejected IsCurrentUserAdmin perm w req s =
    mkRun true (snd (IsCurrentUserAdmin (state perm) req s))
          [CallIsCurrentUserAdmin (state perm) req].
Proof.
  intros Hm Hex Hq. rewrite Rejected_stages by exact Hex.
  rewrite adminLoop_not_admin; [reflexivity | exact Hm |].
  rewrite Hq. reflexivity.
Qed.


End Facts.

(** ** The rule table *)

Section Table.

Context {World UserState ResponseWriter : Type}.
Variable http_Error : ResponseWriter -> string -> Z -> World -> World.

#[local] Abbreviation Perm' := (@Permissions World UserState ResponseWriter).

Lemma GetDenyFunc_SetDenyFunc (perm : Perm') f :
  GetDenyFunc (SetDenyFunc perm f) = f.
Proof. reflexivity. Qed.

Lemma AddPath_same (perm : Perm') valid prefix :
  paths (AddPath perm valid prefix) !!! valid =
    ((paths perm !!! valid) ++ [prefix])%list.
Proof. unfold AddPath. cbn [paths]. apply lookup_total_insert_eq. Qed.

Lemma SetPath_same (perm : Perm') valid prefixes :
  paths (SetPath perm valid prefixes) !!! valid = prefixes.
Proof. unfold SetPath. cbn [paths]. apply lookup_total_insert_eq. Qed.

Lemma SetPath_other (perm : Perm') valid prefixes other :
  valid <> other ->
  paths (SetPath perm valid prefixes) !! other = paths perm !! other.
Proof. intros Hne. unfold SetPath. cbn [paths]. by apply lookup_insert_ne. Qed.

(** C8. Whatever the state of the structure, [Reset] leaves the Admin and
    the User prefix lists empty, and changes neither the Public list (nor
    any other entry of the table), nor the root-is-public flag, nor the
    deny responder, nor the user-state handle. *)
Theorem Reset_clears_admin_and_user_only (perm : Perm') :
  paths (Reset perm) !!! aPaths = []
  /\ paths (Reset perm) !!! uPaths = []
  /\ paths (Reset perm) !!! pPaths = paths perm !!! pPaths
  /\ (forall key : string,
        key <> aPaths -> key <> uPaths ->
        paths (Reset perm) !! key = paths perm !! key)
  /\ rootIsPublic (Reset perm) = rootIsPublic perm
  /\ denied (Reset perm) = denied perm
  /\ state (Reset perm) = state perm.
Proof.
  unfold Reset. cbn [paths rootIsPublic denied state].
  assert (Hother : forall key : string,
            key <> aPaths -> key <> uPaths ->
            <[uPaths:=[]]> (<[aPaths:=[]]> (paths perm)) !! key
            = paths perm !! key).
  { intros key Ha Hu. rewrite !lookup_insert_ne by congruence. reflexivity. }
  repeat split.
  - rewrite lookup_total_insert_ne by discriminate.
    apply lookup_total_insert_eq.
  - apply lookup_total_insert_eq.
  - rewrite !lookup_total_alt, Hother by discriminate. reflexivity.
  - exact Hother.
Qed.

(** C9 (as the code has it). [NewFromUserState] seeds the table with
    Admin = ["/admin"], User = ["/profiles", "/data"] and a Public list of
    ten entries: the nine listed prefixes in their order, with
    "/favicon.ico" written a second time after "/js".  The table has no
    other entry; root-is-public is true, the handle is the one given, and
    the deny responder is [DefaultDenyFunc], which answers through
    [http.Error] with the message "Permission denied." and status 403. *)
Theorem NewFromUserState_defaults (st : UserState) :
  paths (NewFromUserState http_Error st) !! aPaths = Some ["/admin"]
  /\ paths (NewFromUserState http_Error st) !! uPaths
     = Some ["/profiles"; "/data"]
  /\ paths (NewFromUserState http_Error st) !! pPaths
     = Some ["/"; "/login"; "/register"; "/favicon.ico"; "/style"; "/img";
             "/js"; "/favicon.ico"; "/robots.txt"; "/sitemap_index.xml"]
  /\ (forall prefix : string,
        In prefix (paths (NewFromUserState http_Error st) !!! pPaths)
        <-> In prefix listedPublicPrefixes)
  /\ (forall key : string,
        key <> aPaths -> key <> uPaths -> key <> pPaths ->
        paths (NewFromUserState http_Error st) !! key = None)
  /\ rootIsPublic (NewFromUserState http_Error st) = true
  /\ state (NewFromUserState http_Error st) = st
  /\ denied (NewFromUserState http_Error st) = DefaultDenyFunc http_Error
  /\ (forall w req s,
        DefaultDenyFunc http_Error w req s
        = http_Error w "Permission denied." 403%Z s).
Proof.
  repeat split; try reflexivity.
  - replace (paths (NewFromUserState http_Error st) !!! pPaths)
      with ["/"; "/login"; "/register"; "/favicon.ico"; "/style"; "/img";
            "/js"; "/favicon.ico"; "/robots.txt"; "/sitemap_index.xml"]
      by reflexivity.
    unfold listedPublicPrefixes. cbn [In]. intuition.
  - replace (paths (NewFromUserState http_Error st) !!! pPaths)
      with ["/"; "/login"; "/register"; "/favicon.ico"; "/style"; "/img";
            "/js"; "/favicon.ico"; "/robots.txt"; "/sitemap_index.xml"]
      by reflexivity.
    unfold listedPublicPrefixes. cbn [In]. intuition.
  - intros key Ha Hu Hp. unfold NewFromUserState. cbn [paths].
    rewrite !lookup_insert_ne by congruence. apply lookup_empty.
Qed.

End Table.

(** ** Two identity queries compared *)

Section TwoQueries.

Context {World UserState error ResponseWriter : Type}.
Variables q1 q2 :
  UserState -> Request -> World -> (bool * option error) * World.

#[local] Abbreviation Perm2 := (@Permissions World UserState ResponseWriter).

(** Two queries that give the same flag and leave the same world, at the
    store and request at hand. The error value is not compared. *)
#[local] Abbreviation sameFlag st req :=
  (forall s : World,
     fst (fst (q1 st req s)) = fst (fst (q2 st req s))
     /\ snd (q1 st req s) = snd (q2 st req s)).

(** [ok, _ := ...]: the loop reads the flag and drops the error. *)
Lemma adminLoop_same_flag st req path prefixes (s : World) :
  sameFlag st req ->
  @adminLoop _ _ _ ResponseWriter q1 st req path prefixes s
  = adminLoop q2 st req path prefixes s.
Proof.
  intros Hq. revert s.
  induction prefixes as [|prefix rest IH]; intros s; [reflexivity|].
  cbn [adminLoop]. destruct (HasPrefix path prefix); [|apply IH].
  unfold bind, askAdmin. cbn [value after calls].
  destruct (Hq s) as [Hflag Hworld]. rewrite Hflag, Hworld.
  destruct (negb _); [reflexivity | rewrite IH; reflexivity].
Qed.

Lemma Rejected_same_flag (perm : Perm2) w req s :
  sameFlag (state perm) req ->
  Rejected q1 perm w req s = Rejected q2 perm w req s.
Proof.
  intros Hq. unfold Rejected. destruct (negb _); [|reflexivity].
  unfold bind. rewrite (adminLoop_same_flag _ _ _ _ _ Hq). reflexivity.
Qed.

Lemma ServeHTTP_same_flag (perm : Perm2) w req next s :
  sameFlag (state perm) req ->
  ServeHTTP q1 perm w req next s = ServeHTTP q2 perm w req next s.
Proof.
  intros Hq. unfold ServeHTTP, bind.
  rewrite (Rejected_same_flag _ w _ s Hq). reflexivity.
Qed.

(** C4 (as the code has it). For every rule table and every path that
    matches some Admin prefix and is not the exempt root path: when the
    identity query [q1] returns an error together with a false flag, the
    evaluation denies, and both the evaluation and the middleware run
    exactly as with a query [q2] that returns (false, nil) in its place.
    The error value is dropped and only the flag is read; the results of
    [Rejected] and [ServeHTTP] carry no error value. *)
Theorem Rejected_drops_query_error (perm : Perm2) w req next s :
  matchesAny (Path (URL req)) (paths perm !!! aPaths) = true ->
  ~ rootExempt perm req ->
  (forall s', exists e, fst (q1 (state perm) req s') = (false, Some e)) ->
  (forall s', q2 (state perm) req s'
              = ((false, None), snd (q1 (state perm) req s'))) ->
  value (Rejected q1 perm w req s) = true
  /\ Rejected q1 perm w req s = Rejected q2 perm w req s
  /\ ServeHTTP q1 perm w req next s = ServeHTTP q2 perm w req next s.
Proof.
  intros Hm Hex Herr Hnil.
  assert (Hq : sameFlag (state perm) req).
  { intros s'. destruct (Herr s') as [e He]. rewrite Hnil, He.
    split; reflexivity. }
  split; [|split].
  - rewrite Rejected_stages by exact Hex. cbn [value].
    rewrite adminLoop_not_admin; [reflexivity | exact Hm |].
    destruct (Herr s) as [e He]. rewrite He. reflexivity.
  - apply Rejected_same_flag, Hq.
  - apply ServeHTTP_same_flag, Hq.
Qed.

(** C10. For every rule table and every path that matches no Admin prefix,
    or that is "/" while root-is-public is set, the verdict of [Rejected]
    is the same for any two identity queries (and any two worlds they may
    read): the query is not called at all. *)
Theorem Rejected_independent_of_query (perm : Perm2) w req s1 s2 :
  matchesAny (Path (URL req)) (paths perm !!! aPaths) = false
  \/ rootExempt perm req ->
  value (Rejected q1 perm w req s1) = value (Rejected q2 perm w req s2)
  /\ calls (Rejected q1 perm w req s1) = []
  /\ calls (Rejected q2 perm w req s2) = [].
Proof.
  intros H. destruct (rootExempt_dec perm req) as [Hex|Hex].
  - rewrite !Rejected_exempt by exact Hex. repeat split.
  - destruct H as [Hm|H]; [|contradiction].
    rewrite !Rejected_stages by exact Hex.
    rewrite !adminLoop_no_match by exact Hm. repeat split.
Qed.

End TwoQueries.

(** ** Concrete runs, in the stub environment *)

(** C1: the default table, "/admin/dashboard", a store that answers
    (true, nil): the request is not rejected. *)
Lemma default_admin_dashboard_admin_not_denied :
  value (Rejected Stub.IsCurrentUserAdmin (Stub.New (true, None)) 0
                  (Stub.get "/admin/dashboard") [])
  <> true.
Proof. vm_compute. discriminate. Qed.

Lemma default_admin_dashboard_admin_allowed_run :
  value (Rejected Stub.IsCurrentUserAdmin (Stub.New (true, None)) 0
                  (Stub.get "/admin/dashboard") [])
  = false.
Proof.
  apply (default_admin_dashboard_admin_allowed
           Stub.IsCurrentUserAdmin Stub.http_Error (true, None) 0
           (Stub.get "/admin/dashboard") []).
  - reflexivity.
  - intros s'. reflexivity.
Defined.

(** C2: the default table, "/unknown/page", a store that answers
    (false, nil): the request is not rejected. *)
Lemma default_unknown_page_not_denied :
  value (Rejected Stub.IsCurrentUserAdmin (Stub.New (false, None)) 0
                  (Stub.get "/unknown/page") [])
  <> true.
Proof. vm_compute. discriminate. Qed.

Lemma default_unknown_page_allowed_run :
  value (Rejected Stub.IsCurrentUserAdmin (Stub.New (false, None)) 0
                  (Stub.get "/unknown/page") [])
  = false.
Proof.
  apply (default_unknown_page_allowed
           Stub.IsCurrentUserAdmin Stub.http_Error (false, None) 0
           (Stub.get "/unknown/page") []).
  - reflexivity.
  - intros s'. reflexivity.
Defined.

(** C3: the default table after [Reset], "/admin/dashboard", a store that
    answers (false, nil): the request is not rejected. *)
Lemma reset_admin_dashboard_not_denied :
  value (Rejected Stub.IsCurrentUserAdmin (Reset (Stub.New (false, None))) 0
                  (Stub.get "/admin/dashboard") [])
  <> true.
Proof. vm_compute. discriminate. Qed.

Lemma reset_admin_dashboard_allowed_run :
  value (Rejected Stub.IsCurrentUserAdmin (Reset (Stub.New (false, None))) 0
                  (Stub.get "/admin/dashboard") [])
  = false.
Proof.
  apply (reset_admin_dashboard_allowed
           Stub.IsCurrentUserAdmin Stub.http_Error (false, None) 0
           (Stub.get "/admin/dashboard") []).
  - reflexivity.
  - intros s'. reflexivity.
Defined.

(** C4: the default table, "/admin/dashboard" (which matches the Admin
    prefix "/admin"), a store that answers true together with an error: the
    request is not rejected, although it is with the answer (false, nil). *)
Lemma query_error_with_true_flag_not_denied :
  matchesAny "/admin/dashboard"
             (paths (Stub.New (true, Some "store closed")) !!! aPaths) = true
  /\ fst (Stub.IsCurrentUserAdmin (true, Some "store closed")
            (Stub.get "/admin/dashboard") [])
     = (true, Some "store closed")
  /\ value (Rejected Stub.IsCurrentUserAdmin
              (Stub.New (true, Some "store closed")) 0
              (Stub.get "/admin/dashboard") []) = false
  /\ value (Rejected Stub.IsCurrentUserAdmin
              (Stub.New (false, None)) 0
              (Stub.get "/admin/dashboard") []) = true.
Proof. repeat split. Qed.

Lemma Rejected_drops_query_error_run :
  value (Rejected Stub.IsCurrentUserAdmin
           (Stub.New (false, Some "store closed")) 0
           (Stub.get "/admin/dashboard") []) = true
  /\ Rejected Stub.IsCurrentUserAdmin
       (Stub.New (false, Some "store closed")) 0
       (Stub.get "/admin/dashboard") []
     = Rejected (Stub.answer (false, None))
         (Stub.New (false, Some "store closed")) 0
         (Stub.get "/admin/dashboard") []
  /\ ServeHTTP Stub.IsCurrentUserAdmin
       (Stub.New (false, Some "store closed")) 0
       (Stub.get "/admin/dashboard") Stub.next []
     = ServeHTTP (Stub.answer (false, None))
         (Stub.New (false, Some "store closed")) 0
         (Stub.get "/admin/dashboard") Stub.next [].
Proof.
  apply (Rejected_drops_query_error
           Stub.IsCurrentUserAdmin (Stub.answer (false, None))
           (Stub.New (false, Some "store closed")) 0
           (Stub.get "/admin/dashboard") Stub.next []).
  - reflexivity.
  - intros [_ H]. discriminate H.
  - intros s'. exists "store closed". reflexivity.
  - intros s'. reflexivity.
Defined.

(** C5: the root path on the default table, with a store that fails. *)
Lemma Rejected_root_is_public_run :
  Rejected Stub.IsCurrentUserAdmin (Stub.New (false, Some "store closed")) 0
           (Stub.get "/") []
  = mkRun false [] [].
Proof.
  apply (Rejected_root_is_public
           Stub.IsCurrentUserAdmin (Stub.New (false, Some "store closed")) 0
           (Stub.get "/") []).
  - reflexivity.
  - reflexivity.
Defined.

(** C6: the whole site made admin-only by the Admin prefix "/", root still
    public: the path "/" matches an Admin prefix, the store answers
    (false, nil), and the request is not rejected. *)
Lemma root_with_admin_prefix_not_denied :
  matchesAny "/" (paths (SetPath (Stub.New (false, None)) aPaths ["/"])
                  !!! aPaths) = true
  /\ value (Rejected Stub.IsCurrentUserAdmin
              (SetPath (Stub.New (false, None)) aPaths ["/"]) 0
              (Stub.get "/") [])
     <> true.
Proof. split; [reflexivity | vm_compute; discriminate]. Qed.

Lemma Rejected_admin_prefix_not_admin_run :
  Rejected Stub.IsCurrentUserAdmin
           (AddPath (Stub.New (false, None)) pPaths "/admin") 0
           (Stub.get "/admin/dashboard") []
  = mkRun true []
      [CallIsCurrentUserAdmin (false, None) (Stub.get "/admin/dashboard")].
Proof.
  apply (Rejected_admin_prefix_not_admin
           Stub.IsCurrentUserAdmin
           (AddPath (Stub.New (false, None)) pPaths "/admin") 0
           (Stub.get "/admin/dashboard") []).
  - reflexivity.
  - intros [_ H]. discriminate H.
  - intros s'. reflexivity.
Defined.

(** C9: the Public list of the default table is not the nine-entry list. *)
Lemma default_public_list_has_duplicate :
  paths (Stub.New (false, None)) !!! pPaths <> listedPublicPrefixes.
Proof. vm_compute. discriminate. Qed.

(** C10: "/login" on the default table, under two stores that disagree. *)
Lemma Rejected_independent_of_query_run :
  value (Rejected Stub.IsCurrentUserAdmin (Stub.New (true, None)) 0
           (Stub.get "/login") [])
  = value (Rejected (Stub.answer (false, Some "store closed"))
             (Stub.New (true, None)) 0
             (Stub.get "/login") [(7, "earlier response", 200%Z)])
  /\ calls (Rejected Stub.IsCurrentUserAdmin (Stub.New (true, None)) 0
              (Stub.get "/login") []) = []
  /\ calls (Rejected (Stub.answer (false, Some "store closed"))
              (Stub.New (true, None)) 0
              (Stub.get "/login") [(7, "earlier response", 200%Z)]) = [].
Proof.
  apply (Rejected_independent_of_query
           Stub.IsCurrentUserAdmin
           (Stub.answer (false, Some "store closed"))
           (Stub.New (true, None)) 0 (Stub.get "/login")
           [] [(7, "earlier response", 200%Z)]).
  left. reflexivity.
Defined.

(** * Further properties of the package *)

(** ** The mutators of the rule table *)

Section Mutators.

Context {World UserState ResponseWriter : Type}.

#[local] Abbreviation PermM := (@Permissions World UserState ResponseWriter).





(** X2. [AddPath] on a category the table has no entry for (any string is
    accepted as a category) creates the entry, holding that one prefix. *)
Theorem AddPath_missing_key (perm : PermM) (valid : string) (prefix : string) :
  paths perm !! valid = None ->
  paths (AddPath perm valid prefix) !! valid = Some [prefix].
Proof.
  intros Hnone. unfold AddPath. cbn [paths].
  rewrite lookup_insert_eq, lookup_total_alt, Hnone. reflexivity.
Qed.

(** X3. [SetPath] replaces a category's list wholesale and keeps no
    history: the list read back is the one given, a second [SetPath] on the
    same category makes the first one as if it had not happened, and the
    other entries are untouched. *)
Theorem SetPath_replaces (perm : PermM) (valid : string)
    (first second : list string) :
  paths (SetPath perm valid second) !!! valid = second
  /\ SetPath (SetPath perm valid first) valid second
     = SetPath perm valid second
  /\ (forall other : string,
        other <> valid ->
        paths (SetPath perm valid second) !! other = paths perm !! other).
Proof.
  unfold SetPath. cbn [state paths rootIsPublic denied]. repeat split.
  - apply lookup_total_insert_eq.
  - rewrite insert_insert_eq. reflexivity.
  - intros other Hne. apply lookup_insert_ne. congruence.
Qed.



(** X5. Changes to two different categories do not interfere: [AddPath] on
    one and [SetPath] on another give the same structure in either
    order. *)
Theorem AddPath_SetPath_commute (perm : PermM) (k1 k2 : string)
    (prefix : string) (prefixes : list string) :
  k1 <> k2 ->
  SetPath (AddPath perm k1 prefix) k2 prefixes
  = AddPath (SetPath perm k2 prefixes) k1 prefix.
Proof.
  intros Hne. unfold AddPath, SetPath. cbn [state paths rootIsPublic denied].
  rewrite (lookup_total_insert_ne (paths perm) k2 k1) by congruence.
  rewrite insert_insert_ne by congruence. reflexivity.
Qed.


End Mutators.

(** ** The evaluation, stage by stage *)

Section Evaluation.

Context {World UserState error ResponseWriter : Type}.
Variable q : UserState -> Request -> World -> (bool * option error) * World.
Variable http_Error : ResponseWriter -> string -> Z -> World -> World.

#[local] Abbreviation PermE := (@Permissions World UserState ResponseWriter).
#[local] Abbreviation loopE :=
  (@adminLoop World UserState error ResponseWriter q).

Lemma rootExemptb_true (perm : PermE) req :
  rootExemptb perm req = true <-> rootExempt perm req.
Proof.
  unfold rootExemptb, rootExempt.
  rewrite andb_true_iff, String.eqb_eq. reflexivity.
Qed.

Lemma rootExemptb_false (perm : PermE) req :
  rootExemptb perm req = false <-> ~ rootExempt perm req.
Proof. symmetry. apply not_rootExempt. Qed.


Lemma matchesAny_matching path (l : list string) :
  matchesAny path l = false -> matching path l = [].
Proof.
  induction l as [|prefix rest IH]; [reflexivity|].
  cbn [matchesAny existsb matching List.filter]. intros H.
  apply orb_false_iff in H as [Hp Hr]. rewrite Hp. apply IH, Hr.
Qed.




(** A caller the store always reports as admin is asked about once per
    matching Admin prefix. *)
Lemma adminLoop_admin_calls st req path (l : list string) s :
  (forall s', fst (fst (q st req s')) = true) ->
  calls (loopE st req path l s)
  = repeat (CallIsCurrentUserAdmin st req) (length (matching path l)).
Proof.
  intros Hq. revert s.
  induction l as [|prefix rest IH]; intros s; [reflexivity|].
  cbn [adminLoop matching List.filter].
  destruct (HasPrefix path prefix); [|apply IH].
  unfold bind, askAdmin. cbn [value after calls]. rewrite Hq.
  cbn [negb calls app length repeat]. rewrite IH. reflexivity.
Qed.

(** A query that leaves the world alone makes the loop leave it alone. *)
Lemma adminLoop_read_only st req path (l : list string) s :
  (forall s', snd (q st req s') = s') ->
  after (loopE st req path l s) = s.
Proof.
  intros Hq. revert s.
  induction l as [|prefix rest IH]; intros s; [reflexivity|].
  cbn [adminLoop]. destruct (HasPrefix path prefix); [|apply IH].
  unfold bind, askAdmin. cbn [value after calls].
  destruct (negb _); cbn [after ret]; [apply Hq|].
  rewrite IH. apply Hq.
Qed.

(** X7. The decision table of [Rejected] for a store that answers the same
    flag [b] whenever asked: a request is rejected exactly when it is not
    the exempt root path and either it matches an Admin prefix while the
    flag is false, or it matches no Public prefix. *)
Theorem Rejected_decision_table (perm : PermE) w req s (b : bool) :
  (forall s', fst (fst (q (state perm) req s')) = b) ->
  value (Rejected q perm w req s)
  = negb (rootExemptb perm req)
    && ((matchesAny (Path (URL req)) (paths perm !!! aPaths) && negb b)
        || negb (matchesAny (Path (URL req)) (paths perm !!! pPaths))).
Proof.
  intros Hq. destruct (rootExemptb perm req) eqn:Hex.
  - apply rootExemptb_true in Hex.
    rewrite (Rejected_exempt q perm w req s Hex). reflexivity.
  - apply rootExemptb_false in Hex.
    rewrite (Rejected_stages q perm w req s Hex). cbn [value negb andb].
    f_equal.
    destruct (matchesAny (Path (URL req)) (paths perm !!! aPaths)) eqn:Hm.
    + destruct b.
      * rewrite adminLoop_admin by exact Hq. reflexivity.
      * rewrite adminLoop_not_admin by (exact Hm || apply Hq). reflexivity.
    + rewrite adminLoop_no_match by exact Hm. reflexivity.
Qed.

(** X8. Default deny: a request that matches no Public prefix and is not
    the exempt root path is rejected, whoever the caller is and whatever the
    store answers. *)
Theorem Rejected_default_deny (perm : PermE) w req s :
  ~ rootExempt perm req ->
  matchesAny (Path (URL req)) (paths perm !!! pPaths) = false ->
  value (Rejected q perm w req s) = true.
Proof.
  intros Hex Hp. rewrite (Rejected_stages q perm w req s Hex).
  cbn [value]. rewrite Hp. apply orb_true_r.
Qed.

(** X9. A request that matches a Public prefix and no Admin prefix is
    allowed without the store being asked and without any change to the
    world. *)
Theorem Rejected_public_only (perm : PermE) w req s :
  matchesAny (Path (URL req)) (paths perm !!! aPaths) = false ->
  matchesAny (Path (URL req)) (paths perm !!! pPaths) = true ->
  Rejected q perm w req s = mkRun false s [].
Proof.
  intros Ha Hp. destruct (rootExempt_dec perm req) as [Hex|Hex].
  - apply Rejected_exempt, Hex.
  - rewrite (Rejected_stages q perm w req s Hex).
    rewrite adminLoop_no_match by exact Ha. cbn [value after calls].
    rewrite Hp. reflexivity.
Qed.

(** X10. For a caller the store always reports as admin, the Admin stage
    rejects nothing: away from the exempt root path the verdict is decided
    by the Public list alone, and the store has been asked once for every
    Admin prefix the path matches (not once per request). *)
Theorem Rejected_admin_caller (perm : PermE) w req s :
  ~ rootExempt perm req ->
  (forall s', fst (fst (q (state perm) req s')) = true) ->
  value (Rejected q perm w req s)
  = negb (matchesAny (Path (URL req)) (paths perm !!! pPaths))
  /\ calls (Rejected q perm w req s)
     = repeat (CallIsCurrentUserAdmin (state perm) req)
         (length (matching (Path (URL req)) (paths perm !!! aPaths))).
Proof.
  intros Hex Hq. rewrite (Rejected_stages q perm w req s Hex).
  cbn [value calls]. split.
  - rewrite adminLoop_admin by exact Hq. reflexivity.
  - apply adminLoop_admin_calls, Hq.
Qed.


(** X12. The evaluation has no effect of its own on the world: when the
    identity query only reads, the world after [Rejected] is the world
    before it. *)
Theorem Rejected_read_only (perm : PermE) w req s :
  (forall s', snd (q (state perm) req s') = s') ->
  after (Rejected q perm w req s) = s.
Proof.
  intros Hq. destruct (rootExempt_dec perm req) as [Hex|Hex].
  - rewrite (Rejected_exempt q perm w req s Hex). reflexivity.
  - rewrite (Rejected_stages q perm w req s Hex). cbn [after].
    apply adminLoop_read_only, Hq.
Qed.

End Evaluation.

(** ** Configuration and evaluation together *)

Section Configured.

Context {World UserState error ResponseWriter : Type}.
Variable q : UserState -> Request -> World -> (bool * option error) * World.
Variable http_Error : ResponseWriter -> string -> Z -> World -> World.

#[local] Abbreviation PermC := (@Permissions World UserState ResponseWriter).
#[local] Abbreviation loopC :=
  (@adminLoop World UserState error ResponseWriter q).

(** With a store that answers the same flag whenever asked, the Admin loop
    rejects exactly when some prefix matches and the flag is false. *)
Lemma adminLoop_flag st req path (l : list string) s (b : bool) :
  (forall s', fst (fst (q st req s')) = b) ->
  value (loopC st req path l s) = matchesAny path l && negb b.
Proof.
  intros Hq. destruct (matchesAny path l) eqn:Hm.
  - destruct b.
    + rewrite adminLoop_admin by exact Hq. reflexivity.
    + rewrite adminLoop_not_admin by (exact Hm || apply Hq). reflexivity.
  - rewrite adminLoop_no_match by exact Hm. reflexivity.
Qed.

Lemma matchesAny_same_elements path (l1 l2 : list string) :
  (forall prefix, In prefix l1 <-> In prefix l2) ->
  matchesAny path l1 = matchesAny path l2.
Proof.
  intros H. apply eq_true_iff_eq. rewrite !matchesAny_spec.
  split; intros [prefix [Hin Hp]]; exists prefix; split;
    try exact Hp; apply H, Hin.
Qed.

Lemma configure_keeps (perm : PermC) ops :
  state (configure perm ops) = state perm
  /\ rootIsPublic (configure perm ops) = rootIsPublic perm.
Proof.
  revert perm. induction ops as [|op ops IH]; intros perm.
  - split; reflexivity.
  - cbn [configure fold_left]. fold (configure (setup perm op) ops).
    destruct (IH (setup perm op)) as [Hs Hr]. rewrite Hs, Hr.
    destruct op; split; reflexivity.
Qed.




(** X16. With an empty Public list every request other than the exempt
    root path is rejected, for every caller. *)
Theorem empty_public_rejects_all (perm : PermC) w req s :
  ~ rootExempt perm req ->
  value (Rejected q (SetPath perm pPaths []) w req s) = true.
Proof.
  intros Hex.
  rewrite (Rejected_stages q (SetPath perm pPaths []) w req s Hex).
  cbn [value]. apply orb_true_iff. right.
  unfold SetPath. cbn [paths]. rewrite lookup_total_insert_eq. reflexivity.
Qed.

(** X17. Prefixes are not validated, and the empty prefix matches every
    path: with it among the Admin prefixes, every request other than the
    exempt root path is rejected for a caller the store does not report as
    admin. *)
Theorem empty_admin_prefix_gates_all (perm : PermC) w req s :
  In "" (paths perm !!! aPaths) ->
  ~ rootExempt perm req ->
  fst (fst (q (state perm) req s)) = false ->
  value (Rejected q perm w req s) = true.
Proof.
  intros Hin Hex Hq. rewrite (Rejected_stages q perm w req s Hex).
  cbn [value]. rewrite adminLoop_not_admin; [reflexivity | | exact Hq].
  apply matchesAny_spec. exists "". split; [exact Hin|].
  apply HasPrefix_empty.
Qed.

(** X18. After [Reset] no request needs the store: the verdict is decided
    by the root exemption and the Public list alone, the store is not
    asked, and the world is untouched. *)
Theorem Rejected_after_Reset (perm : PermC) w req s :
  Rejected q (Reset perm) w req s
  = mkRun (negb (rootExemptb perm req)
           && negb (matchesAny (Path (URL req)) (paths perm !!! pPaths)))
          s [].
Proof.
  assert (Ha : paths (Reset perm) !!! aPaths = []).
  { unfold Reset. cbn [paths].
    rewrite lookup_total_insert_ne by discriminate.
    apply lookup_total_insert_eq. }
  assert (Hp : paths (Reset perm) !!! pPaths = paths perm !!! pPaths).
  { unfold Reset. cbn [paths].
    rewrite !lookup_total_insert_ne by discriminate. reflexivity. }
  destruct (rootExemptb perm req) eqn:Hex.
  - apply rootExemptb_true in Hex. apply Rejected_exempt. exact Hex.
  - apply rootExemptb_false in Hex.
    rewrite (Rejected_stages q (Reset perm) w req s Hex).
    rewrite Ha, Hp. reflexivity.
Qed.

(** X19. No exported method turns the root exemption off: under every
    configuration built from [NewFromUserState] by [AddPath], [SetPath],
    [Reset] and [SetDenyFunc], the path "/" is allowed, at once and for
    everyone. *)
Theorem root_always_allowed (st : UserState) ops w req s :
  Path (URL req) = "/" ->
  Rejected q (configure (NewFromUserState http_Error st) ops) w req s
  = mkRun false s [].
Proof.
  intros Hpath. apply Rejected_exempt. split; [|exact Hpath].
  destruct (configure_keeps (NewFromUserState http_Error st) ops) as [_ Hr].
  rewrite Hr. reflexivity.
Qed.

(** X20. [GetUserState] gives back the handle the structure was built
    from, whatever configuration followed. *)
Theorem GetUserState_of_configured (st : UserState) ops :
  GetUserState (configure (NewFromUserState http_Error st) ops) = st.
Proof.
  unfold GetUserState.
  destruct (configure_keeps (NewFromUserState http_Error st) ops) as [Hs _].
  rewrite Hs. reflexivity.
Qed.

(** X21. Within the Public category only the set of prefixes counts: two
    Public lists with the same elements, in any order and with any
    repetitions, give the same evaluation of every request. *)
Theorem public_list_as_set (perm : PermC) (l1 l2 : list string) w req s :
  (forall prefix, In prefix l1 <-> In prefix l2) ->
  Rejected q (SetPath perm pPaths l1) w req s
  = Rejected q (SetPath perm pPaths l2) w req s.
Proof.
  intros Hsame.
  destruct (rootExempt_dec perm req) as [Hex|Hex].
  - rewrite (Rejected_exempt q (SetPath perm pPaths l1) w req s Hex).
    rewrite (Rejected_exempt q (SetPath perm pPaths l2) w req s Hex).
    reflexivity.
  - rewrite (Rejected_stages q (SetPath perm pPaths l1) w req s Hex).
    rewrite (Rejected_stages q (SetPath perm pPaths l2) w req s Hex).
    unfold SetPath. cbn [state paths].
    rewrite !lookup_total_insert_eq.
    rewrite !(lookup_total_insert_ne (paths perm) pPaths aPaths)
      by discriminate.
    rewrite (matchesAny_same_elements _ l1 l2 Hsame). reflexivity.
Qed.

(** X22. The default table, for a store that answers the same flag [b]
    whenever asked: a request is rejected exactly when its path starts with
    "/admin" and the flag is false, or its path does not start with a
    slash.  Every other path is open to everyone. *)
Theorem default_table_verdict (st : UserState) w req s (b : bool) :
  (forall s', fst (fst (q st req s')) = b) ->
  value (Rejected q (NewFromUserState http_Error st) w req s)
  = (HasPrefix (Path (URL req)) "/admin" && negb b)
    || negb (HasPrefix (Path (URL req)) "/").
Proof.
  intros Hq.
  destruct (rootExempt_dec (NewFromUserState http_Error st) req) as [Hex|Hex].
  - rewrite (Rejected_exempt q _ w req s Hex).
    destruct Hex as [_ ->]. reflexivity.
  - rewrite (Rejected_stages q _ w req s Hex). cbn [value].
    rewrite (adminLoop_flag _ _ _ _ _ b) by exact Hq.
    rewrite default_aPaths, default_pPaths.
    cbn [matchesAny existsb]. rewrite orb_false_r. f_equal. f_equal.
    destruct (Path (URL req)) as [|c rest]; [reflexivity|].
    rewrite !HasPrefix_step, HasPrefix_empty.
    destruct (Ascii.eqb c _); reflexivity.
Qed.

End Configured.

(** ** The middleware on particular requests *)

Section Serving.

Context {World UserState error ResponseWriter : Type}.
Variable q : UserState -> Request -> World -> (bool * option error) * World.
Variable http_Error : ResponseWriter -> string -> Z -> World -> World.

#[local] Abbreviation PermS := (@Permissions World UserState ResponseWriter).

(** X23. On the exempt root path the middleware goes straight to the
    continuation: the store is not asked, the deny responder is not called,
    and the continuation starts from the world as the request found it. *)
Theorem ServeHTTP_root (perm : PermS) w req next s :
  rootIsPublic perm = true ->
  Path (URL req) = "/" ->
  ServeHTTP q perm w req next s = mkRun tt (next w req s) [CallNext w req].
Proof.
  intros Hroot Hpath. unfold ServeHTTP, bind.
  rewrite (Rejected_exempt q perm w req s (conj Hroot Hpath)).
  reflexivity.
Qed.

(** X24. With the default responder in place, a rejected request is
    answered by one [http.Error] with the message "Permission denied." and
    status 403, written after the evaluation, and the continuation is not
    called. *)
Theorem ServeHTTP_default_denial (perm : PermS) w req next s :
  denied perm = DefaultDenyFunc http_Error ->
  value (Rejected q perm w req s) = true ->
  ServeHTTP q perm w req next s
  = mkRun tt
      (http_Error w "Permission denied." 403%Z
         (after (Rejected q perm w req s)))
      (calls (Rejected q perm w req s) ++ [CallDenied w req]).
Proof.
  intros Hd Hv. unfold ServeHTTP, bind. rewrite Hv.
  unfold callDenied, GetDenyFunc. rewrite Hd. reflexivity.
Qed.

(** X25. The deny responder is replaceable and the last one set wins: after
    two [SetDenyFunc] a rejected request is answered by the second
    responder only, and the evaluation itself is the one of the structure
    before either call. *)
Theorem ServeHTTP_latest_responder (perm : PermS) (f g : HandlerFunc)
    w req next s :
  value (Rejected q perm w req s) = true ->
  ServeHTTP q (SetDenyFunc (SetDenyFunc perm f) g) w req next s
  = mkRun tt (g w req (after (Rejected q perm w req s)))
          (calls (Rejected q perm w req s) ++ [CallDenied w req]).
Proof.
  intros Hv. unfold ServeHTTP, bind.
  change (Rejected q (SetDenyFunc (SetDenyFunc perm f) g) w req s)
    with (Rejected q perm w req s).
  rewrite Hv. reflexivity.
Qed.

End Serving.

(** ** The constructors that open a store *)

Section ConstructorFacts.

Context {World UserState error ResponseWriter : Type}.
Variable NewUserStateSimple : World -> (UserState * option error) * World.
Variable NewUserState :
  string -> bool -> World -> (UserState * option error) * World.
Variable http_Error : ResponseWriter -> string -> Z -> World -> World.

(** X26. [New] fails exactly when opening the default store fails: it then
    hands back that error and no structure; otherwise it hands back no
    error and the default structure over the handle of the opened store.
    Either way the world is the one the store constructor left. *)
Theorem New_result (s : World) :
  snd (fst (New NewUserStateSimple http_Error s))
  = snd (fst (NewUserStateSimple s))
  /\ (fst (fst (New NewUserStateSimple http_Error s)) = None
      <-> snd (fst (NewUserStateSimple s)) <> None)
  /\ (snd (fst (NewUserStateSimple s)) = None ->
      fst (fst (New NewUserStateSimple http_Error s))
      = Some (NewFromUserState http_Error (fst (fst (NewUserStateSimple s)))))
  /\ snd (New NewUserStateSimple http_Error s) = snd (NewUserStateSimple s).
Proof.
  unfold New. destruct (NewUserStateSimple s) as [[st [err|]] s'];
    cbn [fst snd]; repeat split; try discriminate; try congruence.
Qed.

(** X27. [NewWithConf] opens the store of the given name, always with the
    flag set, and fails exactly when that fails: it then hands back that
    error and no structure; otherwise no error and the default structure
    over the opened store's handle. *)
Theorem NewWithConf_result (name : string) (s : World) :
  snd (fst (NewWithConf NewUserState http_Error name s))
  = snd (fst (NewUserState name true s))
  /\ (fst (fst (NewWithConf NewUserState http_Error name s)) = None
      <-> snd (fst (NewUserState name true s)) <> None)
  /\ (snd (fst (NewUserState name true s)) = None ->
      fst (fst (NewWithConf NewUserState http_Error name s))
      = Some (NewFromUserState http_Error
                (fst (fst (NewUserState name true s)))))
  /\ snd (NewWithConf NewUserState http_Error name s)
     = snd (NewUserState name true s).
Proof.
  unfold NewWithConf. destruct (NewUserState name true s) as [[st [err|]] s'];
    cbn [fst snd]; repeat split; try discriminate; try congruence.
Qed.

End ConstructorFacts.

(** ** Further concrete runs, in the stub environment *)

(** X2: a category of the caller's own making. *)
Lemma AddPath_missing_key_run :
  paths (AddPath (Stub.New (false, None)) "PremiumPaths" "/premium")
    !! "PremiumPaths"
  = Some ["/premium"].
Proof.
  apply (AddPath_missing_key (Stub.New (false, None))
           "PremiumPaths" "/premium").
  reflexivity.
Defined.

(** X5: the Admin and the Public category. *)
Lemma AddPath_SetPath_commute_run :
  SetPath (AddPath (Stub.New (false, None)) aPaths "/private")
          pPaths ["/login"]
  = AddPath (SetPath (Stub.New (false, None)) pPaths ["/login"])
            aPaths "/private".
Proof.
  apply (AddPath_SetPath_commute (Stub.New (false, None)) aPaths pPaths
           "/private" ["/login"]).
  discriminate.
Defined.

(** X7: "/admin/users" on the default table, for a caller who is not
    admin. *)
Lemma Rejected_decision_table_run :
  value (Rejected Stub.IsCurrentUserAdmin (Stub.New (false, None)) 0
           (Stub.get "/admin/users") [])
  = negb (rootExemptb (Stub.New (false, None)) (Stub.get "/admin/users"))
    && ((matchesAny "/admin/users"
           (paths (Stub.New (false, None)) !!! aPaths) && negb false)
        || negb (matchesAny "/admin/users"
                   (paths (Stub.New (false, None)) !!! pPaths))).
Proof.
  apply (Rejected_decision_table Stub.IsCurrentUserAdmin
           (Stub.New (false, None)) 0 (Stub.get "/admin/users") [] false).
  intros s'. reflexivity.
Defined.

(** X8: a table whose Public list is ["/login"], and the path "/other". *)
Lemma Rejected_default_deny_run :
  value (Rejected Stub.IsCurrentUserAdmin
           (SetPath (Stub.New (true, None)) pPaths ["/login"]) 0
           (Stub.get "/other") [])
  = true.
Proof.
  apply (Rejected_default_deny Stub.IsCurrentUserAdmin
           (SetPath (Stub.New (true, None)) pPaths ["/login"]) 0
           (Stub.get "/other") []).
  - intros [_ H]. discriminate H.
  - reflexivity.
Defined.

(** X9: "/login" on the default table, with a store that fails. *)
Lemma Rejected_public_only_run :
  Rejected Stub.IsCurrentUserAdmin (Stub.New (false, Some "store closed")) 0
           (Stub.get "/login") []
  = mkRun false [] [].
Proof.
  apply (Rejected_public_only Stub.IsCurrentUserAdmin
           (Stub.New (false, Some "store closed")) 0 (Stub.get "/login") []).
  - reflexivity.
  - reflexivity.
Defined.

(** X10: two Admin prefixes that both match: the admin is asked about
    twice. *)
Lemma Rejected_admin_caller_run :
  value (Rejected Stub.IsCurrentUserAdmin
           (AddPath (Stub.New (true, None)) aPaths "/admin/users") 0
           (Stub.get "/admin/users/7") [])
  = negb (matchesAny "/admin/users/7"
            (paths (AddPath (Stub.New (true, None)) aPaths "/admin/users")
             !!! pPaths))
  /\ calls (Rejected Stub.IsCurrentUserAdmin
              (AddPath (Stub.New (true, None)) aPaths "/admin/users") 0
              (Stub.get "/admin/users/7") [])
     = repeat (CallIsCurrentUserAdmin (true, None)
                 (Stub.get "/admin/users/7"))
         (length (matching "/admin/users/7"
                    (paths (AddPath (Stub.New (true, None)) aPaths
                              "/admin/users") !!! aPaths))).
Proof.
  apply (Rejected_admin_caller Stub.IsCurrentUserAdmin
           (AddPath (Stub.New (true, None)) aPaths "/admin/users") 0
           (Stub.get "/admin/users/7") []).
  - intros [_ H]. discriminate H.
  - intros s'. reflexivity.
Defined.

(** X12: the stub store only reads. *)
Lemma Rejected_read_only_run :
  after (Rejected Stub.IsCurrentUserAdmin (Stub.New (false, None)) 0
           (Stub.get "/admin/users") [(3, "earlier response", 200%Z)])
  = [(3, "earlier response", 200%Z)].
Proof.
  apply (Rejected_read_only Stub.IsCurrentUserAdmin
           (Stub.New (false, None)) 0 (Stub.get "/admin/users")
           [(3, "earlier response", 200%Z)]).
  intros s'. reflexivity.
Defined.




(** X16: "/login" once the Public list is empty, for an admin. *)
Lemma empty_public_rejects_all_run :
  value (Rejected Stub.IsCurrentUserAdmin
           (SetPath (Stub.New (true, None)) pPaths []) 0
           (Stub.get "/login") [])
  = true.
Proof.
  apply (empty_public_rejects_all Stub.IsCurrentUserAdmin
           (Stub.New (true, None)) 0 (Stub.get "/login") []).
  intros [_ H]. discriminate H.
Defined.

(** X17: the empty prefix added to the Admin category. *)
Lemma empty_admin_prefix_gates_all_run :
  value (Rejected Stub.IsCurrentUserAdmin
           (AddPath (Stub.New (false, None)) aPaths "") 0
           (Stub.get "/login") [])
  = true.
Proof.
  apply (empty_admin_prefix_gates_all Stub.IsCurrentUserAdmin
           (AddPath (Stub.New (false, None)) aPaths "") 0
           (Stub.get "/login") []).
  - right. left. reflexivity.
  - intros [_ H]. discriminate H.
  - reflexivity.
Defined.

(** X19: the root path after the Public list was emptied and the whole
    site put under the Admin prefix "/". *)
Lemma root_always_allowed_run :
  Rejected Stub.IsCurrentUserAdmin
    (configure (NewFromUserState Stub.http_Error (false, None))
       [DoSetPath pPaths []; DoAddPath aPaths "/"; DoReset;
        DoSetDenyFunc Stub.next; DoSetPath aPaths ["/"]])
    0 (Stub.get "/") []
  = mkRun false [] [].
Proof.
  apply (root_always_allowed Stub.IsCurrentUserAdmin Stub.http_Error
           (false, None)
           [DoSetPath pPaths []; DoAddPath aPaths "/"; DoReset;
            DoSetDenyFunc Stub.next; DoSetPath aPaths ["/"]]
           0 (Stub.get "/") []).
  reflexivity.
Defined.

(** X21: the default Public list, with its repeated entry, against the
    list of the nine distinct prefixes. *)
Lemma public_list_as_set_run :
  Rejected Stub.IsCurrentUserAdmin
    (SetPath (Stub.New (false, None)) pPaths
       ["/"; "/login"; "/register"; "/favicon.ico"; "/style"; "/img"; "/js";
        "/favicon.ico"; "/robots.txt"; "/sitemap_index.xml"]) 0
    (Stub.get "/img/logo.png") []
  = Rejected Stub.IsCurrentUserAdmin
      (SetPath (Stub.New (false, None)) pPaths listedPublicPrefixes) 0
      (Stub.get "/img/logo.png") [].
Proof.
  apply (public_list_as_set Stub.IsCurrentUserAdmin (Stub.New (false, None))
           ["/"; "/login"; "/register"; "/favicon.ico"; "/style"; "/img";
            "/js"; "/favicon.ico"; "/robots.txt"; "/sitemap_index.xml"]
           listedPublicPrefixes 0 (Stub.get "/img/logo.png") []).
  intros prefix. unfold listedPublicPrefixes. cbn [In]. tauto.
Defined.

(** X22: a path without a leading slash, for an admin. *)
Lemma default_table_verdict_run :
  value (Rejected Stub.IsCurrentUserAdmin
           (NewFromUserState Stub.http_Error (true, None)) 0
           (Stub.get "login") [])
  = (HasPrefix "login" "/admin" && negb true) || negb (HasPrefix "login" "/").
Proof.
  apply (default_table_verdict Stub.IsCurrentUserAdmin Stub.http_Error
           (true, None) 0 (Stub.get "login") [] true).
  intros s'. reflexivity.
Defined.

(** X23: the root path through the middleware, with a continuation that
    writes a page. *)
Lemma ServeHTTP_root_run :
  ServeHTTP Stub.IsCurrentUserAdmin (Stub.New (false, None)) 0
    (Stub.get "/") (fun w _ s => Stub.http_Error w "welcome" 200%Z s) []
  = mkRun tt [(0, "welcome", 200%Z)] [CallNext 0 (Stub.get "/")].
Proof.
  apply (ServeHTTP_root Stub.IsCurrentUserAdmin (Stub.New (false, None)) 0
           (Stub.get "/")
           (fun w _ s => Stub.http_Error w "welcome" 200%Z s) []).
  - reflexivity.
  - reflexivity.
Defined.

(** X24: "/admin/users" through the middleware, for a caller who is not
    admin: one 403 is written. *)
Lemma ServeHTTP_default_denial_run :
  ServeHTTP Stub.IsCurrentUserAdmin (Stub.New (false, None)) 0
    (Stub.get "/admin/users")
    (fun w _ s => Stub.http_Error w "welcome" 200%Z s) []
  = mkRun tt
      (Stub.http_Error 0 "Permission denied." 403%Z
         (after (Rejected Stub.IsCurrentUserAdmin (Stub.New (false, None)) 0
                   (Stub.get "/admin/users") [])))
      (calls (Rejected Stub.IsCurrentUserAdmin (Stub.New (false, None)) 0
                (Stub.get "/admin/users") [])
       ++ [CallDenied 0 (Stub.get "/admin/users")]).
Proof.
  apply (ServeHTTP_default_denial Stub.IsCurrentUserAdmin Stub.http_Error
           (Stub.New (false, None)) 0 (Stub.get "/admin/users")
           (fun w _ s => Stub.http_Error w "welcome" 200%Z s) []).
  - reflexivity.
  - reflexivity.
Defined.

(** X25: two responders set one after the other. *)
Lemma ServeHTTP_latest_responder_run :
  ServeHTTP Stub.IsCurrentUserAdmin
    (SetDenyFunc
       (SetDenyFunc (Stub.New (false, None))
          (fun w _ s => Stub.http_Error w "first" 401%Z s))
       (fun w _ s => Stub.http_Error w "second" 404%Z s))
    0 (Stub.get "/admin/users") Stub.next []
  = mkRun tt
      (Stub.http_Error 0 "second" 404%Z
         (after (Rejected Stub.IsCurrentUserAdmin (Stub.New (false, None)) 0
                   (Stub.get "/admin/users") [])))
      (calls (Rejected Stub.IsCurrentUserAdmin (Stub.New (false, None)) 0
                (Stub.get "/admin/users") [])
       ++ [CallDenied 0 (Stub.get "/admin/users")]).
Proof.
  apply (ServeHTTP_latest_responder Stub.IsCurrentUserAdmin
           (Stub.New (false, None))
           (fun w _ s => Stub.http_Error w "first" 401%Z s)
           (fun w _ s => Stub.http_Error w "second" 404%Z s)
           0 (Stub.get "/admin/users") Stub.next []).
  reflexivity.
Defined.
